(** * check_production_ready: the production-readiness management command

    A shallow embedding of
    [apps/core/management/commands/check_production_ready.py].

    The command is one method, [Command.handle], that reads five attributes
    of the framework's [settings] object and writes styled message blocks to
    [self.stdout].  It is embedded as a computation in a small
    state-and-exception monad over a [World] that holds the settings
    provider and the blocks written so far:

    - an attribute read [settings.X] of an absent attribute raises
      [AttributeError]; nothing in [handle] catches it;
    - [hasattr(settings, 'X')] and [getattr(settings, 'X', default)] never
      raise;
    - [self.stdout.write(self.style.S(text))] appends one styled block.

    Strings are sequences of bytes (UTF-8, as the source file is encoded).
    The two literals the command searches for, ['django-insecure'] and
    ['*.zentoerp.com'], are plain ASCII, so byte-wise substring search and
    byte-wise equality agree with Python's code-point-wise ones on
    well-formed text. *)

From Stdlib Require Import String Ascii List Bool ZArith Lia.
Import ListNotations.

Local Open Scope list_scope.
Local Open Scope string_scope.

(** ** Strings as Python uses them here *)

(** The line feed of the ['\n'] escapes. *)
Definition LF : string := String (ascii_of_nat 10) EmptyString.

(** [s * n] on a Python [str]: [n] copies of [s], one after the other. *)
Fixpoint str_mul (s : string) (n : nat) : string :=
  match n with
  | O => EmptyString
  | S n' => s ++ str_mul s n'
  end.

(** [needle in hay] for two Python [str]: a scan for the first position at
    which [needle] is a prefix of the rest of [hay]. *)
Fixpoint str_contains (needle hay : string) : bool :=
  String.prefix needle hay ||
  match hay with
  | EmptyString => false
  | String _ rest => str_contains needle rest
  end.

(** [x in xs] for a [str] and a sequence of [str]: some element equals [x]. *)
Fixpoint seq_contains (x : string) (xs : list string) : bool :=
  match xs with
  | [] => false
  | y :: ys => String.eqb y x || seq_contains x ys
  end.

(** What "occurs as a substring" means, independently of the scan. *)
Definition substring_of (needle hay : string) : Prop :=
  exists before after, hay = before ++ needle ++ after.

(** ** The settings provider *)

(** The five attributes the command looks at, typed as the application
    configures them.  [None] is an attribute the provider does not have. *)
Record Settings : Type := mkSettings {
  DEBUG : option bool;
  SECRET_KEY : option string;
  TENANT_DOMAIN : option string;
  ALLOWED_HOSTS : option (list string);
  TENANT_MODEL : option string
}.

(** The three attributes [handle] reads unconditionally. *)
Definition exposes_required (s : Settings) : bool :=
  match DEBUG s, SECRET_KEY s, ALLOWED_HOSTS s with
  | Some _, Some _, Some _ => true
  | _, _, _ => false
  end.

(** ** Styled output *)

(** [self.style.SUCCESS(text)], [self.style.WARNING(text)] and
    [self.style.ERROR(text)]: a text tagged with its style class.  How a
    terminal renders the class is the framework's business. *)
Inductive styled : Type :=
| SUCCESS (text : string)
| WARNING (text : string)
| ERROR (text : string).

(** ** The command monad *)

Record World : Type := mkWorld {
  settings : Settings;
  stdout : list styled
}.

Inductive exn : Type :=
| AttributeError (name : string).

(** A computation maps a world to the world it leaves behind and either the
    exception it raised or its value.  The world survives a raise: what was
    written before a fault stays written. *)
Definition cmd (A : Type) : Type := World -> World * (exn + A).

Definition ret {A : Type} (a : A) : cmd A :=
  fun w => (w, inr a).

Definition bind {A B : Type} (c : cmd A) (k : A -> cmd B) : cmd B :=
  fun w =>
    match c w with
    | (w', inl e) => (w', inl e)
    | (w', inr a) => k a w'
    end.

(** [raise e]. *)
Definition raise {A : Type} (e : exn) : cmd A :=
  fun w => (w, inl e).

Declare Scope cmd_scope.
Delimit Scope cmd_scope with cmd.
Notation "x <- c ;; k" := (bind c (fun x => k))
  (at level 61, c at next level, right associativity) : cmd_scope.
Notation "c ;; k" := (bind c (fun _ => k))
  (at level 61, right associativity) : cmd_scope.
Local Open Scope cmd_scope.

(** [settings.<name>]. *)
Definition getattr {A : Type} (name : string) (field : Settings -> option A)
  : cmd A :=
  fun w =>
    match field (settings w) with
    | Some v => ret v w
    | None => raise (AttributeError name) w
    end.

(** [hasattr(settings, '<name>')]. *)
Definition hasattr {A : Type} (field : Settings -> option A) : cmd bool :=
  fun w =>
    match field (settings w) with
    | Some _ => (w, inr true)
    | None => (w, inr false)
    end.

(** [getattr(settings, '<name>', default)]. *)
Definition getattr_default {A : Type} (field : Settings -> option A)
  (default : A) : cmd A :=
  fun w =>
    match field (settings w) with
    | Some v => (w, inr v)
    | None => (w, inr default)
    end.

(** [self.stdout.write(block)]: one call, one block.  The line ending the
    output wrapper adds and the terminal codes of the style are the
    framework's and are not part of the block. *)
Definition stdout_write (b : styled) : cmd unit :=
  fun w => (mkWorld (settings w) (stdout w ++ [b])%list, inr tt).

(** An [if] with no [else]. *)
Definition when (b : bool) (c : cmd unit) : cmd unit :=
  if b then c else ret tt.

(** ** The message texts, as the source spells them *)

Module Msg.

(** The two adjacent literals of the banner.  Python joins adjacent
    literals before it applies [*], so this whole text is what gets
    repeated. *)
Definition banner_literal : string :=
  "🎯 Verificando configuración para producción en Render" ++ LF ++ "=".

Definition debug_warning : string :=
  "⚠️  Ejecutando en modo DEBUG (desarrollo)" ++ LF ++
  "   En producción, Render configurará DEBUG=False automáticamente".

Definition secret_key_warning : string :=
  "⚠️  SECRET_KEY de desarrollo detectada" ++ LF ++
  "   En producción, configurar SECRET_KEY segura en variables de entorno".

Definition tenant_domain_prefix : string :=
  "✅ TENANT_DOMAIN configurado: ".

Definition tenant_domain_missing : string :=
  "❌ TENANT_DOMAIN no configurado".

Definition allowed_hosts_ok : string :=
  "✅ ALLOWED_HOSTS incluye *.zentoerp.com".

Definition allowed_hosts_missing : string :=
  "❌ ALLOWED_HOSTS no incluye *.zentoerp.com".

Definition tenant_model_ok : string :=
  "✅ Modelos de tenant configurados correctamente".

Definition summary_head : string :=
  LF ++ "🎉 Configuración base lista para producción!" ++ LF ++
  "   Dominio objetivo: zentoerp.com" ++ LF ++
  "   Subdominios: *.zentoerp.com" ++ LF ++
  "   Modelo tenant: ".

Definition summary_tail : string :=
  LF ++
  LF ++ "📋 Pasos para producción:" ++ LF ++
  "   1. Crear servicios en Render (PostgreSQL, Redis, Web)" ++ LF ++
  "   2. Configurar variables de entorno en Render" ++ LF ++
  "   3. Configurar DNS (A record + CNAME *)" ++ LF ++
  "   4. Deploy automático desde branch production" ++ LF ++
  LF ++ "🔧 Variables críticas para Render:" ++ LF ++
  "   - SECRET_KEY: Generar clave segura" ++ LF ++
  "   - DEBUG: False" ++ LF ++
  "   - ALLOWED_HOSTS: zentoerp.com,*.zentoerp.com" ++ LF ++
  "   - DB_* : Credenciales de PostgreSQL" ++ LF ++
  "   - REDIS_URL: URL de Redis" ++ LF.

(** The closing f-string, with the one value it interpolates. *)
Definition summary (tenant_model : string) : string :=
  summary_head ++ tenant_model ++ summary_tail.

End Msg.

(** ** [Command.handle], block by block *)

Module Command.

(** Lines 10-15. *)
Definition print_banner : cmd unit :=
  stdout_write (SUCCESS (str_mul Msg.banner_literal 60)).

(** Lines 17-24, [# Verificar que estamos en modo de desarrollo]. *)
Definition check_debug : cmd unit :=
  debug <- getattr "DEBUG" DEBUG ;;
  when debug (stdout_write (WARNING Msg.debug_warning)).

(** Lines 26-33, [# Verificar SECRET_KEY]. *)
Definition check_secret_key : cmd unit :=
  key <- getattr "SECRET_KEY" SECRET_KEY ;;
  when (str_contains "django-insecure" key)
       (stdout_write (WARNING Msg.secret_key_warning)).

(** Lines 35-43, [# Verificar TENANT_DOMAIN]. *)
Definition check_tenant_domain : cmd unit :=
  present <- hasattr TENANT_DOMAIN ;;
  if present then
    domain <- getattr "TENANT_DOMAIN" TENANT_DOMAIN ;;
    stdout_write (SUCCESS (Msg.tenant_domain_prefix ++ domain))
  else
    stdout_write (ERROR Msg.tenant_domain_missing).

(** Lines 45-53, [# Verificar ALLOWED_HOSTS]. *)
Definition check_allowed_hosts : cmd unit :=
  hosts <- getattr "ALLOWED_HOSTS" ALLOWED_HOSTS ;;
  if seq_contains "*.zentoerp.com" hosts then
    stdout_write (SUCCESS Msg.allowed_hosts_ok)
  else
    stdout_write (ERROR Msg.allowed_hosts_missing).

(** Lines 55-59.  The [and] reads [settings.TENANT_MODEL] only when
    [hasattr] answered true. *)
Definition check_tenant_model : cmd unit :=
  present <- hasattr TENANT_MODEL ;;
  matches <- (if present then
                model <- getattr "TENANT_MODEL" TENANT_MODEL ;;
                ret (String.eqb model "tenants.Tenant")
              else ret false) ;;
  when matches (stdout_write (SUCCESS Msg.tenant_model_ok)).

(** Lines 61-79. *)
Definition print_summary : cmd unit :=
  model <- getattr_default TENANT_MODEL "No configurado" ;;
  stdout_write (SUCCESS (Msg.summary model)).

Definition handle : cmd unit :=
  print_banner ;;
  check_debug ;;
  check_secret_key ;;
  check_tenant_domain ;;
  check_allowed_hosts ;;
  check_tenant_model ;;
  print_summary.

End Command.

Import Command.

(** ** One invocation *)

(** The command started on provider [s] with nothing written yet. *)
Definition invoke (s : Settings) : World * (exn + unit) :=
  handle (mkWorld s []).

(** The blocks an invocation leaves on standard output, in order. *)
Definition output (s : Settings) : list styled :=
  stdout (fst (invoke s)).

(** How the invocation ended. *)
Definition outcome (s : Settings) : exn + unit :=
  snd (invoke s).

(** Modelled from the spec: the process around [handle] (the framework's
    command runner, which is not part of this repository) turns a normal
    return into exit code 0 and an exception that escapes [handle] into a
    non-zero one. *)
Definition exit_code (r : exn + unit) : Z :=
  match r with
  | inr _ => 0%Z
  | inl _ => 1%Z
  end.

(** ** Providers to run the command on *)

Definition production_like : Settings :=
  mkSettings (Some false) (Some "k3y-from-the-environment")
             (Some "acme.zentoerp.com")
             (Some ["zentoerp.com"; "*.zentoerp.com"])
             (Some "tenants.Tenant").

Definition development_like : Settings :=
  mkSettings (Some true) (Some "django-insecure-abc123")
             None (Some ["zentoerp.com"]) None.

(** [TENANT_DOMAIN] set, to the empty string. *)
Definition empty_domain : Settings :=
  mkSettings (Some false) (Some "k3y-from-the-environment")
             (Some "") (Some ["*.zentoerp.com"]) (Some "other.Tenant").

(** A provider that cannot answer [settings.SECRET_KEY]. *)
Definition no_secret_key : Settings :=
  mkSettings (Some true) None (Some "acme.zentoerp.com")
             (Some ["*.zentoerp.com"]) (Some "tenants.Tenant").

(** ** The blocks the command can write, by name *)

Definition banner_block : styled :=
  SUCCESS (str_mul Msg.banner_literal 60).

Definition debug_line : styled := WARNING Msg.debug_warning.

Definition secret_key_line : styled := WARNING Msg.secret_key_warning.

Definition tenant_domain_line (domain : string) : styled :=
  SUCCESS (Msg.tenant_domain_prefix ++ domain).

Definition tenant_domain_error : styled := ERROR Msg.tenant_domain_missing.

Definition allowed_hosts_line : styled := SUCCESS Msg.allowed_hosts_ok.

Definition allowed_hosts_error : styled := ERROR Msg.allowed_hosts_missing.

Definition tenant_model_line : styled := SUCCESS Msg.tenant_model_ok.

Definition summary_block (tenant_model : option string) : styled :=
  SUCCESS (Msg.summary match tenant_model with
                       | Some model => model
                       | None => "No configurado"
                       end).

(** A block that reports on [TENANT_DOMAIN], either way. *)
Definition tenant_domain_report (b : styled) : bool :=
  match b with
  | SUCCESS text => String.prefix Msg.tenant_domain_prefix text
  | ERROR text => String.eqb text Msg.tenant_domain_missing
  | WARNING _ => false
  end.

(** A closing summary, whatever tenant model it names. *)
Definition is_summary (b : styled) : bool :=
  match b with
  | SUCCESS text => String.prefix Msg.summary_head text
  | _ => false
  end.

(** [w] with [blocks] written after what it already holds. *)
Definition push (w : World) (blocks : list styled) : World :=
  mkWorld (settings w) (stdout w ++ blocks)%list.

(** What each check writes when it runs to its end. *)
Definition debug_out (debug : bool) : list styled :=
  if debug then [debug_line] else [].

Definition secret_key_out (key : string) : list styled :=
  if str_contains "django-insecure" key then [secret_key_line] else [].

Definition tenant_domain_out (domain : option string) : list styled :=
  match domain with
  | Some d => [tenant_domain_line d]
  | None => [tenant_domain_error]
  end.

Definition allowed_hosts_out (hosts : list string) : list styled :=
  if seq_contains "*.zentoerp.com" hosts
  then [allowed_hosts_line] else [allowed_hosts_error].

Definition tenant_model_out (model : option string) : list styled :=
  match model with
  | Some m => if String.eqb m "tenants.Tenant" then [tenant_model_line] else []
  | None => []
  end.

(** A computation that leaves the settings alone and only appends to
    standard output, whether it returns or raises. *)
Definition read_only {A : Type} (c : cmd A) : Prop :=
  forall w, exists blocks, fst (c w) = push w blocks.

(** The style of a block with the first nine bytes of its text: enough to
    tell apart any two blocks the command writes for different reasons. *)
Definition leading (b : styled) : styled :=
  match b with
  | SUCCESS text => SUCCESS (substring 0 9 text)
  | WARNING text => WARNING (substring 0 9 text)
  | ERROR text => ERROR (substring 0 9 text)
  end.

(** ** Notions used to state further properties of [handle] *)

(** The header line of the banner: the first of its two literals, up to
    the line feed. *)
Definition banner_header : string :=
  "🎯 Verificando configuración para producción en Render".

(** How many positions of [hay] start an occurrence of [needle]. *)
Fixpoint occurrences (needle hay : string) : nat :=
  (if String.prefix needle hay then 1 else 0) +
  match hay with
  | EmptyString => 0
  | String _ rest => occurrences needle rest
  end.

(** The tenant model the closing summary names for a provider whose
    [TENANT_MODEL] is [model]. *)
Definition shown_model (model : option string) : string :=
  match model with
  | Some m => m
  | None => "No configurado"
  end.

(** [s] with each of the three required attributes it lacks set to the
    value given for it; what [s] has is kept. *)
Definition with_defaults (debug : bool) (key : string) (hosts : list string)
  (s : Settings) : Settings :=
  mkSettings
    (Some match DEBUG s with Some d => d | None => debug end)
    (Some match SECRET_KEY s with Some k => k | None => key end)
    (TENANT_DOMAIN s)
    (Some match ALLOWED_HOSTS s with Some h => h | None => hosts end)
    (TENANT_MODEL s).

(** A block in the success style. *)
Definition is_success (b : styled) : bool :=
  match b with
  | SUCCESS _ => true
  | _ => false
  end.

(** A provider missing nothing, with a placeholder key in debug mode and a
    tenant model of another application. *)
Definition other_model : Settings :=
  mkSettings (Some true) (Some "xx-django-insecure-xx")
             (Some "acme.zentoerp.com") (Some ["*.zentoerp.com"])
             (Some "customers.Client").

(** ** Concrete runs, checked by evaluation *)

Example production_like_run :
  invoke production_like =
  (mkWorld production_like
     [ SUCCESS (str_mul Msg.banner_literal 60);
       SUCCESS "✅ TENANT_DOMAIN configurado: acme.zentoerp.com";
       SUCCESS Msg.allowed_hosts_ok;
       SUCCESS Msg.tenant_model_ok;
       SUCCESS (Msg.summary "tenants.Tenant") ],
   inr tt).
Proof. vm_compute. reflexivity. Qed.

Example development_like_run :
  invoke development_like =
  (mkWorld development_like
     [ SUCCESS (str_mul Msg.banner_literal 60);
       WARNING Msg.debug_warning;
       WARNING Msg.secret_key_warning;
       ERROR Msg.tenant_domain_missing;
       ERROR Msg.allowed_hosts_missing;
       SUCCESS (Msg.summary "No configurado") ],
   inr tt).
Proof. vm_compute. reflexivity. Qed.

Example no_debug_run :
  invoke (mkSettings None (Some "django-insecure") None None None) =
  (mkWorld (mkSettings None (Some "django-insecure") None None None)
     [ SUCCESS (str_mul Msg.banner_literal 60) ],
   inl (AttributeError "DEBUG")).
Proof. vm_compute. reflexivity. Qed.

(** Python joins the two adjacent literals of the banner before it applies
    [* 60]: the header line comes back after every [=], and no two [=]
    stand side by side. *)
Example banner_repeats_its_header :
  str_contains ("=" ++ "🎯 Verificando") (str_mul Msg.banner_literal 60) = true
  /\ str_contains "==" (str_mul Msg.banner_literal 60) = false.
Proof. split; vm_compute; reflexivity. Qed.

(** ** Facts about the string operations *)

Section StringFacts.

Lemma prefix_iff (p s : string) :
  String.prefix p s = true <-> exists rest, s = p ++ rest.
Proof.
  revert s. induction p as [| a p IH]; intros s; simpl.
  - destruct s; split; intros; eauto.
  - destruct s as [| b s]; simpl.
    + split; [discriminate | intros [rest H]; discriminate].
    + destruct (ascii_dec a b) as [-> | Hab].
      * rewrite IH. split; intros [rest H].
        -- exists rest. now rewrite H.
        -- exists rest. now injection H.
      * split; [discriminate | intros [rest H]].
        injection H as Hb _. now symmetry in Hb.
Qed.

Lemma prefix_append (p rest : string) : String.prefix p (p ++ rest) = true.
Proof. apply prefix_iff. now exists rest. Qed.

Lemma str_contains_here (needle hay : string) :
  String.prefix needle hay = true -> str_contains needle hay = true.
Proof. intros H. destruct hay; cbn [str_contains]; now rewrite H. Qed.

Lemma str_contains_later (needle : string) (c : ascii) (hay : string) :
  str_contains needle hay = true ->
  str_contains needle (String c hay) = true.
Proof.
  intros H. cbn [str_contains]. rewrite H. apply orb_true_r.
Qed.

(** The scan answers true exactly on the texts that contain the needle. *)
Lemma str_contains_iff (needle hay : string) :
  str_contains needle hay = true <-> substring_of needle hay.
Proof.
  split.
  - induction hay as [| c hay IH]; cbn [str_contains]; intros H.
    + apply orb_true_iff in H as [H | H]; [| discriminate].
      apply prefix_iff in H as [rest H]. now exists "", rest.
    + apply orb_true_iff in H as [H | H].
      * apply prefix_iff in H as [rest H]. now exists "", rest.
      * destruct (IH H) as (before & after & ->).
        now exists (String c before), after.
  - intros (before & after & ->).
    induction before as [| c before IH].
    + apply str_contains_here. exact (prefix_append needle after).
    + exact (str_contains_later needle c _ IH).
Qed.

Lemma seq_contains_iff (x : string) (xs : list string) :
  seq_contains x xs = true <-> In x xs.
Proof.
  induction xs as [| y ys IH]; simpl.
  - split; [discriminate | tauto].
  - rewrite orb_true_iff, String.eqb_eq, IH. tauto.
Qed.

End StringFacts.

(** ** Running the monad *)

Section Running.

Lemma push_nil (w : World) : push w [] = w.
Proof. destruct w. unfold push. cbn. now rewrite app_nil_r. Qed.

Lemma push_push (w : World) (xs ys : list styled) :
  push (push w xs) ys = push w (xs ++ ys)%list.
Proof. unfold push. cbn. now rewrite app_assoc. Qed.

Lemma settings_push (w : World) (xs : list styled) :
  settings (push w xs) = settings w.
Proof. reflexivity. Qed.

Lemma bind_returns {A B : Type} (c : cmd A) (k : A -> cmd B) w w' a :
  c w = (w', inr a) -> bind c k w = k a w'.
Proof. unfold bind. now intros ->. Qed.

Lemma bind_raises {A B : Type} (c : cmd A) (k : A -> cmd B) w w' e :
  c w = (w', inl e) -> bind c k w = (w', inl e).
Proof. unfold bind. now intros ->. Qed.

Lemma getattr_present {A : Type} name (field : Settings -> option A) w v :
  field (settings w) = Some v -> getattr name field w = (w, inr v).
Proof. unfold getattr. now intros ->. Qed.

Lemma getattr_absent {A : Type} name (field : Settings -> option A) w :
  field (settings w) = None ->
  getattr name field w = (w, inl (AttributeError name)).
Proof. unfold getattr. now intros ->. Qed.

Lemma stdout_write_run (b : styled) (w : World) :
  stdout_write b w = (push w [b], inr tt).
Proof. reflexivity. Qed.

Lemma when_run (b : bool) (x : styled) (w : World) :
  when b (stdout_write x) w = (push w (if b then [x] else []), inr tt).
Proof. destruct b; cbn; [reflexivity | now rewrite push_nil]. Qed.

End Running.

(** ** What each block of [handle] does *)

Section Blocks.

Variable w : World.

Lemma print_banner_run : print_banner w = (push w [banner_block], inr tt).
Proof. reflexivity. Qed.

Lemma check_debug_run (debug : bool) :
  DEBUG (settings w) = Some debug ->
  check_debug w = (push w (debug_out debug), inr tt).
Proof.
  intros H. unfold check_debug.
  rewrite (bind_returns _ _ _ _ _ (getattr_present "DEBUG" DEBUG w _ H)).
  apply when_run.
Qed.

Lemma check_debug_raises :
  DEBUG (settings w) = None ->
  check_debug w = (w, inl (AttributeError "DEBUG")).
Proof.
  intros H. unfold check_debug.
  apply bind_raises, getattr_absent, H.
Qed.

Lemma check_secret_key_run (key : string) :
  SECRET_KEY (settings w) = Some key ->
  check_secret_key w = (push w (secret_key_out key), inr tt).
Proof.
  intros H. unfold check_secret_key.
  rewrite (bind_returns _ _ _ _ _
             (getattr_present "SECRET_KEY" SECRET_KEY w _ H)).
  apply when_run.
Qed.

Lemma check_secret_key_raises :
  SECRET_KEY (settings w) = None ->
  check_secret_key w = (w, inl (AttributeError "SECRET_KEY")).
Proof.
  intros H. unfold check_secret_key.
  apply bind_raises, getattr_absent, H.
Qed.

(** The [hasattr] guard keeps the read inside the branch from raising. *)
Lemma check_tenant_domain_run :
  check_tenant_domain w =
  (push w (tenant_domain_out (TENANT_DOMAIN (settings w))), inr tt).
Proof.
  unfold check_tenant_domain, bind, hasattr, getattr.
  destruct (TENANT_DOMAIN (settings w)) as [d |] eqn:E; cbn.
  - now rewrite E.
  - reflexivity.
Qed.

Lemma check_allowed_hosts_run (hosts : list string) :
  ALLOWED_HOSTS (settings w) = Some hosts ->
  check_allowed_hosts w = (push w (allowed_hosts_out hosts), inr tt).
Proof.
  intros H. unfold check_allowed_hosts.
  rewrite (bind_returns _ _ _ _ _
             (getattr_present "ALLOWED_HOSTS" ALLOWED_HOSTS w _ H)).
  unfold allowed_hosts_out.
  now destruct (seq_contains "*.zentoerp.com" hosts).
Qed.

Lemma check_allowed_hosts_raises :
  ALLOWED_HOSTS (settings w) = None ->
  check_allowed_hosts w = (w, inl (AttributeError "ALLOWED_HOSTS")).
Proof.
  intros H. unfold check_allowed_hosts.
  apply bind_raises, getattr_absent, H.
Qed.

Lemma check_tenant_model_run :
  check_tenant_model w =
  (push w (tenant_model_out (TENANT_MODEL (settings w))), inr tt).
Proof.
  unfold check_tenant_model, bind, hasattr, getattr, tenant_model_out.
  destruct (TENANT_MODEL (settings w)) as [m |] eqn:E; cbn.
  - rewrite E. cbn.
    destruct (String.eqb m "tenants.Tenant"); cbn;
      [reflexivity | now rewrite push_nil].
  - now rewrite push_nil.
Qed.

Lemma print_summary_run :
  print_summary w =
  (push w [summary_block (TENANT_MODEL (settings w))], inr tt).
Proof.
  unfold print_summary, bind, getattr_default, summary_block.
  now destruct (TENANT_MODEL (settings w)).
Qed.

End Blocks.

(** ** The whole of [handle] *)

Section Whole.

Variable w : World.

(** With the three unconditional reads answered, [handle] runs to its
    end and has written these blocks, in this order. *)
Lemma handle_returns (debug : bool) (key : string) (hosts : list string) :
  DEBUG (settings w) = Some debug ->
  SECRET_KEY (settings w) = Some key ->
  ALLOWED_HOSTS (settings w) = Some hosts ->
  handle w =
  (push w ([banner_block] ++ debug_out debug ++ secret_key_out key ++
           tenant_domain_out (TENANT_DOMAIN (settings w)) ++
           allowed_hosts_out hosts ++
           tenant_model_out (TENANT_MODEL (settings w)) ++
           [summary_block (TENANT_MODEL (settings w))])%list,
   inr tt).
Proof.
  intros Hd Hk Hh. unfold handle.
  erewrite bind_returns by apply print_banner_run.
  erewrite bind_returns by (apply check_debug_run; exact Hd).
  erewrite bind_returns by (apply check_secret_key_run; exact Hk).
  erewrite bind_returns by apply check_tenant_domain_run.
  erewrite bind_returns by (apply check_allowed_hosts_run; exact Hh).
  erewrite bind_returns by apply check_tenant_model_run.
  rewrite print_summary_run, !push_push, !settings_push.
  now rewrite <- ?app_assoc.
Qed.

Lemma handle_raises_DEBUG :
  DEBUG (settings w) = None ->
  handle w = (push w [banner_block], inl (AttributeError "DEBUG")).
Proof.
  intros Hd. unfold handle.
  erewrite bind_returns by apply print_banner_run.
  erewrite bind_raises by (apply check_debug_raises; exact Hd).
  reflexivity.
Qed.

Lemma handle_raises_SECRET_KEY (debug : bool) :
  DEBUG (settings w) = Some debug ->
  SECRET_KEY (settings w) = None ->
  handle w = (push w ([banner_block] ++ debug_out debug)%list,
              inl (AttributeError "SECRET_KEY")).
Proof.
  intros Hd Hk. unfold handle.
  erewrite bind_returns by apply print_banner_run.
  erewrite bind_returns by (apply check_debug_run; exact Hd).
  erewrite bind_raises by (apply check_secret_key_raises; exact Hk).
  now rewrite !push_push.
Qed.

Lemma handle_raises_ALLOWED_HOSTS (debug : bool) (key : string) :
  DEBUG (settings w) = Some debug ->
  SECRET_KEY (settings w) = Some key ->
  ALLOWED_HOSTS (settings w) = None ->
  handle w =
  (push w ([banner_block] ++ debug_out debug ++ secret_key_out key ++
           tenant_domain_out (TENANT_DOMAIN (settings w)))%list,
   inl (AttributeError "ALLOWED_HOSTS")).
Proof.
  intros Hd Hk Hh. unfold handle.
  erewrite bind_returns by apply print_banner_run.
  erewrite bind_returns by (apply check_debug_run; exact Hd).
  erewrite bind_returns by (apply check_secret_key_run; exact Hk).
  erewrite bind_returns by apply check_tenant_domain_run.
  erewrite bind_raises by (apply check_allowed_hosts_raises; exact Hh).
  rewrite !push_push. now rewrite <- ?app_assoc.
Qed.

End Whole.

(** ** The output of one invocation *)

Section Output.

Variable s : Settings.

Lemma exposes_required_inv :
  exposes_required s = true ->
  exists debug key hosts,
    DEBUG s = Some debug /\ SECRET_KEY s = Some key /\
    ALLOWED_HOSTS s = Some hosts.
Proof.
  unfold exposes_required.
  destruct (DEBUG s) as [debug |], (SECRET_KEY s) as [key |],
    (ALLOWED_HOSTS s) as [hosts |]; try discriminate.
  intros _. now exists debug, key, hosts.
Qed.

Lemma exposes_required_false :
  exposes_required s = false ->
  DEBUG s = None \/
  (exists debug, DEBUG s = Some debug /\ SECRET_KEY s = None) \/
  (exists debug key, DEBUG s = Some debug /\ SECRET_KEY s = Some key /\
                     ALLOWED_HOSTS s = None).
Proof.
  unfold exposes_required.
  destruct (DEBUG s) as [debug |]; [| now left].
  destruct (SECRET_KEY s) as [key |]; [| right; left; now exists debug].
  destruct (ALLOWED_HOSTS s) as [hosts |]; [discriminate |].
  intros _. right; right. now exists debug, key.
Qed.

Lemma invoke_returns (debug : bool) (key : string) (hosts : list string) :
  DEBUG s = Some debug -> SECRET_KEY s = Some key ->
  ALLOWED_HOSTS s = Some hosts ->
  output s =
    ([banner_block] ++ debug_out debug ++ secret_key_out key ++
     tenant_domain_out (TENANT_DOMAIN s) ++ allowed_hosts_out hosts ++
     tenant_model_out (TENANT_MODEL s) ++
     [summary_block (TENANT_MODEL s)])%list
  /\ outcome s = inr tt.
Proof.
  intros Hd Hk Hh. unfold output, outcome, invoke.
  rewrite (handle_returns (mkWorld s []) debug key hosts Hd Hk Hh).
  split; reflexivity.
Qed.

Lemma invoke_raises_DEBUG :
  DEBUG s = None ->
  output s = [banner_block] /\ outcome s = inl (AttributeError "DEBUG").
Proof.
  intros Hd. unfold output, outcome, invoke.
  rewrite (handle_raises_DEBUG (mkWorld s []) Hd). split; reflexivity.
Qed.

Lemma invoke_raises_SECRET_KEY (debug : bool) :
  DEBUG s = Some debug -> SECRET_KEY s = None ->
  output s = ([banner_block] ++ debug_out debug)%list /\
  outcome s = inl (AttributeError "SECRET_KEY").
Proof.
  intros Hd Hk. unfold output, outcome, invoke.
  rewrite (handle_raises_SECRET_KEY (mkWorld s []) debug Hd Hk).
  split; reflexivity.
Qed.

Lemma invoke_raises_ALLOWED_HOSTS (debug : bool) (key : string) :
  DEBUG s = Some debug -> SECRET_KEY s = Some key ->
  ALLOWED_HOSTS s = None ->
  output s = ([banner_block] ++ debug_out debug ++ secret_key_out key ++
              tenant_domain_out (TENANT_DOMAIN s))%list /\
  outcome s = inl (AttributeError "ALLOWED_HOSTS").
Proof.
  intros Hd Hk Hh. unfold output, outcome, invoke.
  rewrite (handle_raises_ALLOWED_HOSTS (mkWorld s []) debug key Hd Hk Hh).
  split; reflexivity.
Qed.

End Output.

(** Two blocks that differ in style or in their leading bytes. *)
Ltac clash :=
  match goal with
  | H : @eq styled _ _ |- _ =>
      solve [apply (f_equal leading) in H; vm_compute in H; discriminate H]
  end.

(** Splits membership in (and equalities about) the lists the checks
    write into its cases, and drops the impossible ones. *)
Ltac blocks :=
  unfold debug_out, secret_key_out, tenant_domain_out, allowed_hosts_out,
    tenant_model_out in *;
  repeat match goal with
         | |- context [if ?c then _ else _] => destruct c eqn:?
         | H : context [if ?c then _ else _] |- _ => destruct c eqn:?
         | |- context [match ?o with Some _ => _ | None => _ end] =>
             destruct o eqn:?
         | H : context [match ?o with Some _ => _ | None => _ end] |- _ =>
             destruct o eqn:?
         end;
  cbn [app In] in *.

Ltac cases :=
  repeat match goal with
         | H : _ \/ _ |- _ => destruct H
         | H : False |- _ => destruct H
         end;
  try clash.

(** Finds the block sought among the alternatives of an unfolded [In]. *)
Ltac found := repeat first [left; reflexivity | right].

Lemma tenant_domain_report_line (domain : string) :
  tenant_domain_report (tenant_domain_line domain) = true.
Proof. apply prefix_append. Qed.

(** ** The checks, one by one *)

(** C6.  The development-mode warning is among the blocks of an
    invocation exactly when the provider has [DEBUG] and it is true.  This
    holds for every provider, also one that lacks a later attribute: the
    [DEBUG] check comes first. *)
Theorem debug_warning_iff (s : Settings) :
  In debug_line (output s) <-> DEBUG s = Some true.
Proof.
  destruct (exposes_required s) eqn:E.
  - destruct (exposes_required_inv s E) as (debug & key & hosts & Hd & Hk & Hh).
    destruct (invoke_returns s debug key hosts Hd Hk Hh) as [-> _].
    rewrite Hd. split.
    + intros H. blocks; cases; reflexivity.
    + intros [= ->]. cbn. auto.
  - destruct (exposes_required_false s E)
      as [Hd | [(debug & Hd & Hk) | (debug & key & Hd & Hk & Hh)]].
    + destruct (invoke_raises_DEBUG s Hd) as [-> _]. rewrite Hd.
      split; [intros H; blocks; cases | discriminate].
    + destruct (invoke_raises_SECRET_KEY s debug Hd Hk) as [-> _].
      rewrite Hd. split.
      * intros H. blocks; cases; reflexivity.
      * intros [= ->]. cbn. auto.
    + destruct (invoke_raises_ALLOWED_HOSTS s debug key Hd Hk Hh) as [-> _].
      rewrite Hd. split.
      * intros H. blocks; cases; reflexivity.
      * intros [= ->]. cbn. auto.
Qed.

(** C4.  On a provider that has the required attributes, the insecure-key
    warning is among the blocks of an invocation exactly when
    ['django-insecure'] occurs somewhere inside [SECRET_KEY]. *)
Theorem secret_key_warning_iff (s : Settings) :
  exposes_required s = true ->
  (In secret_key_line (output s) <->
   exists key, SECRET_KEY s = Some key /\
               substring_of "django-insecure" key).
Proof.
  intros E.
  destruct (exposes_required_inv s E) as (debug & key & hosts & Hd & Hk & Hh).
  destruct (invoke_returns s debug key hosts Hd Hk Hh) as [-> _].
  split.
  - intros H. exists key. split; [exact Hk |].
    apply str_contains_iff. blocks; cases; reflexivity.
  - intros (key' & Hk' & Hsub). rewrite Hk in Hk'. injection Hk' as <-.
    apply str_contains_iff in Hsub.
    unfold secret_key_out. rewrite Hsub.
    apply in_cons, in_or_app. right. apply in_or_app. left. now left.
Qed.

Lemma secret_key_warning_iff_witness :
  In secret_key_line (output development_like) /\
  ~ In secret_key_line (output production_like).
Proof.
  split.
  - apply (secret_key_warning_iff development_like); [reflexivity |].
    exists "django-insecure-abc123". split; [reflexivity |].
    now exists "", "-abc123".
  - intros H.
    apply (secret_key_warning_iff production_like) in H; [| reflexivity].
    destruct H as (key & [= <-] & Hsub).
    apply str_contains_iff in Hsub. vm_compute in Hsub. discriminate Hsub.
Defined.

(** C1.  The tenant-model check writes its success line when
    [TENANT_MODEL] is present and equal to ['tenants.Tenant'], and leaves
    the world as it found it (nothing written, no error line instead) for
    every other value and when the attribute is absent; in both cases it
    returns.  Over a whole invocation on a provider with the required
    attributes, the success line is among the blocks exactly in the first
    case. *)
Theorem tenant_model_check_spec (w : World) :
  (TENANT_MODEL (settings w) = Some "tenants.Tenant" ->
   check_tenant_model w = (push w [tenant_model_line], inr tt)) /\
  (TENANT_MODEL (settings w) <> Some "tenants.Tenant" ->
   check_tenant_model w = (w, inr tt)) /\
  (exposes_required (settings w) = true ->
   (In tenant_model_line (output (settings w)) <->
    TENANT_MODEL (settings w) = Some "tenants.Tenant")).
Proof.
  repeat split.
  - intros H. rewrite check_tenant_model_run, H. reflexivity.
  - intros H. rewrite check_tenant_model_run.
    destruct (TENANT_MODEL (settings w)) as [m |]; cbn.
    + destruct (String.eqb m "tenants.Tenant") eqn:E.
      * apply String.eqb_eq in E. now subst m.
      * now rewrite push_nil.
    + now rewrite push_nil.
  - destruct (exposes_required_inv _ H)
      as (debug & key & hosts & Hd & Hk & Hh).
    destruct (invoke_returns _ debug key hosts Hd Hk Hh) as [-> _].
    intros Hin. blocks; cases;
      match goal with
      | Heq : String.eqb _ _ = true |- _ =>
          apply String.eqb_eq in Heq; now subst
      end.
  - destruct (exposes_required_inv _ H)
      as (debug & key & hosts & Hd & Hk & Hh).
    destruct (invoke_returns _ debug key hosts Hd Hk Hh) as [-> _].
    intros ->. cbn [tenant_model_out].
    replace ("tenants.Tenant" =? "tenants.Tenant") with true by reflexivity.
    apply in_cons. do 4 (apply in_or_app; right).
    apply in_or_app. left. now left.
Qed.

Lemma tenant_model_check_spec_witness :
  check_tenant_model (mkWorld production_like []) =
    (mkWorld production_like [tenant_model_line], inr tt) /\
  check_tenant_model (mkWorld empty_domain [banner_block]) =
    (mkWorld empty_domain [banner_block], inr tt) /\
  In tenant_model_line (output production_like).
Proof.
  split; [| split].
  - apply (tenant_model_check_spec (mkWorld production_like [])).
    reflexivity.
  - apply (tenant_model_check_spec (mkWorld empty_domain [banner_block])).
    discriminate.
  - apply (tenant_model_check_spec (mkWorld production_like []));
      reflexivity.
Defined.

(** C2.  On every provider that has the required attributes the
    invocation returns, the last block it has written is the closing
    summary (naming the tenant model, or the placeholder when there is
    none), and the exit code is 0, whatever the checks found. *)
Theorem summary_always_printed (s : Settings) :
  exposes_required s = true ->
  (exists earlier,
     output s = (earlier ++ [summary_block (TENANT_MODEL s)])%list) /\
  outcome s = inr tt /\
  exit_code (outcome s) = 0%Z.
Proof.
  intros E.
  destruct (exposes_required_inv s E) as (debug & key & hosts & Hd & Hk & Hh).
  destruct (invoke_returns s debug key hosts Hd Hk Hh) as [-> ->].
  split; [| split; reflexivity].
  exists ([banner_block] ++ debug_out debug ++ secret_key_out key ++
          tenant_domain_out (TENANT_DOMAIN s) ++ allowed_hosts_out hosts ++
          tenant_model_out (TENANT_MODEL s))%list.
  now rewrite <- !app_assoc.
Qed.

Lemma summary_always_printed_witness :
  (exists earlier,
     output development_like =
       (earlier ++ [summary_block None])%list) /\
  outcome development_like = inr tt /\
  exit_code (outcome development_like) = 0%Z.
Proof.
  apply (summary_always_printed development_like). reflexivity.
Defined.

(** C3.  On a provider that has the required attributes, an invocation
    writes the [TENANT_DOMAIN] success line, with the attribute's value
    after the fixed prefix, when the attribute is present, and the
    [TENANT_DOMAIN] error line when it is absent; never the other one, and
    exactly one block of the output reports on [TENANT_DOMAIN]. *)
Theorem tenant_domain_check_spec (s : Settings) :
  exposes_required s = true ->
  (forall domain, TENANT_DOMAIN s = Some domain ->
     In (SUCCESS (Msg.tenant_domain_prefix ++ domain)) (output s) /\
     ~ In (ERROR Msg.tenant_domain_missing) (output s)) /\
  (TENANT_DOMAIN s = None ->
     In (ERROR Msg.tenant_domain_missing) (output s) /\
     forall domain,
       ~ In (SUCCESS (Msg.tenant_domain_prefix ++ domain)) (output s)) /\
  length (filter tenant_domain_report (output s)) = 1.
Proof.
  intros E.
  destruct (exposes_required_inv s E) as (debug & key & hosts & Hd & Hk & Hh).
  destruct (invoke_returns s debug key hosts Hd Hk Hh) as [-> _].
  fold tenant_domain_error.
  split; [| split].
  - intros domain ->. fold (tenant_domain_line domain). split.
    + blocks; found.
    + intros H. blocks; cases.
  - intros ->. split.
    + blocks; found.
    + intros domain H. fold (tenant_domain_line domain) in H. blocks; cases.
  - blocks; cbn [filter]; rewrite ?tenant_domain_report_line;
      vm_compute; reflexivity.
Qed.

Lemma tenant_domain_check_spec_witness :
  (In (SUCCESS "✅ TENANT_DOMAIN configurado: acme.zentoerp.com")
      (output production_like) /\
   ~ In (ERROR Msg.tenant_domain_missing) (output production_like)) /\
  In (ERROR Msg.tenant_domain_missing) (output development_like) /\
  length (filter tenant_domain_report (output production_like)) = 1.
Proof.
  split; [| split].
  - apply (tenant_domain_check_spec production_like); reflexivity.
  - apply (tenant_domain_check_spec development_like); reflexivity.
  - apply (tenant_domain_check_spec production_like); reflexivity.
Defined.

(** C5.  On a provider that has the required attributes, an invocation
    writes the [ALLOWED_HOSTS] success line exactly when ['*.zentoerp.com']
    is an element of [ALLOWED_HOSTS], and the [ALLOWED_HOSTS] error line
    exactly when it is not. *)
Theorem allowed_hosts_check_spec (s : Settings) (hosts : list string) :
  exposes_required s = true ->
  ALLOWED_HOSTS s = Some hosts ->
  (In allowed_hosts_line (output s) <-> In "*.zentoerp.com" hosts) /\
  (In allowed_hosts_error (output s) <-> ~ In "*.zentoerp.com" hosts).
Proof.
  intros E Hh.
  destruct (exposes_required_inv s E) as (debug & key & hosts' & Hd & Hk & Hh').
  rewrite Hh in Hh'. injection Hh' as <-.
  destruct (invoke_returns s debug key hosts Hd Hk Hh) as [-> _].
  rewrite <- seq_contains_iff, not_true_iff_false.
  split; split.
  - intros H. blocks; cases; reflexivity.
  - intros H. unfold allowed_hosts_out. rewrite H. blocks; found.
  - intros H. blocks; cases; reflexivity.
  - intros H. unfold allowed_hosts_out. rewrite H. blocks; found.
Qed.

Lemma allowed_hosts_check_spec_witness :
  (In allowed_hosts_line (output production_like) <->
   In "*.zentoerp.com" ["zentoerp.com"; "*.zentoerp.com"]) /\
  (In allowed_hosts_error (output development_like) <->
   ~ In "*.zentoerp.com" ["zentoerp.com"]).
Proof.
  split.
  - apply (allowed_hosts_check_spec production_like); reflexivity.
  - apply (allowed_hosts_check_spec development_like); reflexivity.
Defined.

(** C10.  The [TENANT_DOMAIN] check looks at presence only.  On a provider
    that has the required attributes and whose [TENANT_DOMAIN] is the empty
    string, the success line is written, with nothing after its prefix,
    and the error line is not; and the error line is written exactly when
    the attribute is absent. *)
Theorem tenant_domain_presence_only (s : Settings) :
  exposes_required s = true ->
  (TENANT_DOMAIN s = Some "" ->
     In (SUCCESS "✅ TENANT_DOMAIN configurado: ") (output s) /\
     ~ In tenant_domain_error (output s)) /\
  (In tenant_domain_error (output s) <-> TENANT_DOMAIN s = None).
Proof.
  intros E.
  destruct (exposes_required_inv s E) as (debug & key & hosts & Hd & Hk & Hh).
  destruct (invoke_returns s debug key hosts Hd Hk Hh) as [-> _].
  split; [| split].
  - intros ->. change (SUCCESS "✅ TENANT_DOMAIN configurado: ")
      with (tenant_domain_line ""). split.
    + blocks; found.
    + intros H. blocks; cases.
  - intros H. blocks; cases; reflexivity.
  - intros ->. blocks; found.
Qed.

Lemma tenant_domain_presence_only_witness :
  (In (SUCCESS "✅ TENANT_DOMAIN configurado: ") (output empty_domain) /\
   ~ In tenant_domain_error (output empty_domain)) /\
  In tenant_domain_error (output development_like).
Proof.
  split.
  - apply (tenant_domain_presence_only empty_domain); reflexivity.
  - apply (tenant_domain_presence_only development_like); reflexivity.
Defined.

(** ** Order, faults and frame *)

(** C7.  On a provider that has the required attributes, the output is the
    banner, then what the [DEBUG] check wrote (nothing or its warning),
    then the [SECRET_KEY] check (nothing or its warning), then the
    [TENANT_DOMAIN] check (its success or its error line), then the
    [ALLOWED_HOSTS] check (its success or its error line), then the
    [TENANT_MODEL] check (nothing or its success line), then the closing
    summary, and nothing else. *)
Theorem output_order (s : Settings) :
  exposes_required s = true ->
  exists debug_part key_part domain_part hosts_part model_part,
    output s =
      ([banner_block] ++ debug_part ++ key_part ++ domain_part ++
       hosts_part ++ model_part ++ [summary_block (TENANT_MODEL s)])%list /\
    (debug_part = [] \/ debug_part = [debug_line]) /\
    (key_part = [] \/ key_part = [secret_key_line]) /\
    (domain_part = [tenant_domain_error] \/
     exists domain, domain_part = [tenant_domain_line domain]) /\
    (hosts_part = [allowed_hosts_line] \/
     hosts_part = [allowed_hosts_error]) /\
    (model_part = [] \/ model_part = [tenant_model_line]).
Proof.
  intros E.
  destruct (exposes_required_inv s E) as (debug & key & hosts & Hd & Hk & Hh).
  destruct (invoke_returns s debug key hosts Hd Hk Hh) as [-> _].
  exists (debug_out debug), (secret_key_out key),
    (tenant_domain_out (TENANT_DOMAIN s)), (allowed_hosts_out hosts),
    (tenant_model_out (TENANT_MODEL s)).
  split; [reflexivity |].
  split; [destruct debug; cbn; auto |].
  split; [unfold secret_key_out;
          destruct (str_contains "django-insecure" key); auto |].
  split; [destruct (TENANT_DOMAIN s) as [d |]; cbn; eauto |].
  split; [unfold allowed_hosts_out;
          destruct (seq_contains "*.zentoerp.com" hosts); auto |].
  destruct (TENANT_MODEL s) as [m |]; cbn; auto.
  destruct (String.eqb m "tenants.Tenant"); auto.
Qed.

Lemma output_order_witness :
  exists debug_part key_part domain_part hosts_part model_part,
    output development_like =
      ([banner_block] ++ debug_part ++ key_part ++ domain_part ++
       hosts_part ++ model_part ++ [summary_block None])%list /\
    (debug_part = [] \/ debug_part = [debug_line]) /\
    (key_part = [] \/ key_part = [secret_key_line]) /\
    (domain_part = [tenant_domain_error] \/
     exists domain, domain_part = [tenant_domain_line domain]) /\
    (hosts_part = [allowed_hosts_line] \/
     hosts_part = [allowed_hosts_error]) /\
    (model_part = [] \/ model_part = [tenant_model_line]).
Proof.
  apply (output_order development_like). reflexivity.
Defined.

(** C8.  When the provider lacks [DEBUG], [SECRET_KEY] or [ALLOWED_HOSTS],
    the invocation ends with the [AttributeError] of the first of them, in
    reading order, that is absent: the fault is not caught or replaced, the
    exit code is not 0, and no closing summary is written. *)
Theorem provider_fault_propagates (s : Settings) :
  exposes_required s = false ->
  exists name,
    outcome s = inl (AttributeError name) /\
    (name = "DEBUG" /\ DEBUG s = None \/
     name = "SECRET_KEY" /\ DEBUG s <> None /\ SECRET_KEY s = None \/
     name = "ALLOWED_HOSTS" /\ DEBUG s <> None /\ SECRET_KEY s <> None /\
       ALLOWED_HOSTS s = None) /\
    exit_code (outcome s) <> 0%Z /\
    forall b, In b (output s) -> is_summary b = false.
Proof.
  intros E.
  destruct (exposes_required_false s E)
    as [Hd | [(debug & Hd & Hk) | (debug & key & Hd & Hk & Hh)]].
  - destruct (invoke_raises_DEBUG s Hd) as [-> ->].
    exists "DEBUG". split; [reflexivity |]. split; [auto |].
    split; [discriminate |].
    intros b H. blocks; cases; subst b; reflexivity.
  - destruct (invoke_raises_SECRET_KEY s debug Hd Hk) as [-> ->].
    exists "SECRET_KEY". split; [reflexivity |].
    split; [right; left; rewrite Hd; repeat split; auto; discriminate |].
    split; [discriminate |].
    intros b H. blocks; cases; subst b; reflexivity.
  - destruct (invoke_raises_ALLOWED_HOSTS s debug key Hd Hk Hh) as [-> ->].
    exists "ALLOWED_HOSTS". split; [reflexivity |].
    split; [right; right; rewrite Hd, Hk; repeat split; auto; discriminate |].
    split; [discriminate |].
    intros b H. blocks; cases; subst b; reflexivity.
Qed.

Lemma provider_fault_propagates_witness :
  exists name,
    outcome no_secret_key = inl (AttributeError name) /\
    (name = "DEBUG" /\ DEBUG no_secret_key = None \/
     name = "SECRET_KEY" /\ DEBUG no_secret_key <> None /\
       SECRET_KEY no_secret_key = None \/
     name = "ALLOWED_HOSTS" /\ DEBUG no_secret_key <> None /\
       SECRET_KEY no_secret_key <> None /\
       ALLOWED_HOSTS no_secret_key = None) /\
    exit_code (outcome no_secret_key) <> 0%Z /\
    forall b, In b (output no_secret_key) -> is_summary b = false.
Proof.
  apply (provider_fault_propagates no_secret_key). reflexivity.
Defined.

(** Every primitive of the monad, and every way of composing them that
    [handle] uses, leaves the settings alone and only appends to standard
    output. *)
Section ReadOnly.

Lemma read_only_ret {A : Type} (a : A) : read_only (ret a).
Proof. intros w. exists []. cbn. now rewrite push_nil. Qed.

Lemma read_only_bind {A B : Type} (c : cmd A) (k : A -> cmd B) :
  read_only c -> (forall a, read_only (k a)) -> read_only (bind c k).
Proof.
  intros Hc Hk w. unfold bind.
  destruct (Hc w) as [xs Hxs]. destruct (c w) as [w' [e | a]]; cbn in *.
  - now exists xs.
  - destruct (Hk a w') as [ys Hys]. exists (xs ++ ys)%list.
    now rewrite Hys, Hxs, push_push.
Qed.

Lemma read_only_getattr {A : Type} name (field : Settings -> option A) :
  read_only (getattr name field).
Proof.
  intros w. exists []. unfold getattr.
  destruct (field (settings w)); cbn; now rewrite push_nil.
Qed.

Lemma read_only_hasattr {A : Type} (field : Settings -> option A) :
  read_only (hasattr field).
Proof.
  intros w. exists []. unfold hasattr.
  destruct (field (settings w)); cbn; now rewrite push_nil.
Qed.

Lemma read_only_getattr_default {A : Type} (field : Settings -> option A)
  (default : A) : read_only (getattr_default field default).
Proof.
  intros w. exists []. unfold getattr_default.
  destruct (field (settings w)); cbn; now rewrite push_nil.
Qed.

Lemma read_only_stdout_write (b : styled) : read_only (stdout_write b).
Proof. intros w. now exists [b]. Qed.

Lemma read_only_when (b : bool) (c : cmd unit) :
  read_only c -> read_only (when b c).
Proof. destruct b; cbn; [trivial | intros _; apply read_only_ret]. Qed.

Lemma read_only_if {A : Type} (b : bool) (c1 c2 : cmd A) :
  read_only c1 -> read_only c2 -> read_only (if b then c1 else c2).
Proof. now destruct b. Qed.

End ReadOnly.

Create HintDb read_only.
#[local] Hint Resolve read_only_ret read_only_bind read_only_getattr
  read_only_hasattr read_only_getattr_default read_only_stdout_write
  read_only_when read_only_if : read_only.

Lemma read_only_handle : read_only handle.
Proof.
  unfold handle, print_banner, check_debug, check_secret_key,
    check_tenant_domain, check_allowed_hosts, check_tenant_model,
    print_summary.
  repeat first
    [ apply read_only_bind; [| intros ? ]
    | apply read_only_if
    | apply read_only_when
    | solve [auto with read_only] ].
Qed.

(** C9.  From any world, with anything already on standard output,
    [handle] leaves the settings as they were and standard output as it
    was with some blocks added at its end; the world has no other part.
    This holds whether [handle] returns or raises. *)
Theorem handle_frame (w : World) :
  settings (fst (handle w)) = settings w /\
  exists blocks, stdout (fst (handle w)) = (stdout w ++ blocks)%list.
Proof.
  destruct (read_only_handle w) as [blocks ->].
  split; [reflexivity | now exists blocks].
Qed.

(** ** Further properties of [handle] *)

(** The four ways an invocation can go, with what it has written in each. *)
Lemma invoke_cases (s : Settings) :
  (exists debug key hosts,
     DEBUG s = Some debug /\ SECRET_KEY s = Some key /\
     ALLOWED_HOSTS s = Some hosts /\
     output s =
       ([banner_block] ++ debug_out debug ++ secret_key_out key ++
        tenant_domain_out (TENANT_DOMAIN s) ++ allowed_hosts_out hosts ++
        tenant_model_out (TENANT_MODEL s) ++
        [summary_block (TENANT_MODEL s)])%list /\
     outcome s = inr tt) \/
  (DEBUG s = None /\ output s = [banner_block] /\
   outcome s = inl (AttributeError "DEBUG")) \/
  (exists debug,
     DEBUG s = Some debug /\ SECRET_KEY s = None /\
     output s = ([banner_block] ++ debug_out debug)%list /\
     outcome s = inl (AttributeError "SECRET_KEY")) \/
  (exists debug key,
     DEBUG s = Some debug /\ SECRET_KEY s = Some key /\
     ALLOWED_HOSTS s = None /\
     output s = ([banner_block] ++ debug_out debug ++ secret_key_out key ++
                 tenant_domain_out (TENANT_DOMAIN s))%list /\
     outcome s = inl (AttributeError "ALLOWED_HOSTS")).
Proof.
  destruct (exposes_required s) eqn:E.
  - destruct (exposes_required_inv s E) as (debug & key & hosts & Hd & Hk & Hh).
    destruct (invoke_returns s debug key hosts Hd Hk Hh) as [Ho Hr].
    left. exists debug, key, hosts. auto.
  - destruct (exposes_required_false s E)
      as [Hd | [(debug & Hd & Hk) | (debug & key & Hd & Hk & Hh)]].
    + destruct (invoke_raises_DEBUG s Hd). right; left. auto.
    + destruct (invoke_raises_SECRET_KEY s debug Hd Hk).
      right; right; left. exists debug. auto.
    + destruct (invoke_raises_ALLOWED_HOSTS s debug key Hd Hk Hh).
      right; right; right. exists debug, key. auto.
Qed.

Lemma invoke_eq (s : Settings) :
  invoke s = (mkWorld s (output s), outcome s).
Proof.
  unfold output, outcome, invoke.
  destruct (read_only_handle (mkWorld s [])) as [blocks H].
  destruct (handle (mkWorld s [])) as [w r]. cbn in *. now subst w.
Qed.

(** X1.  What [handle] writes and how it ends depend on the settings only,
    not on what is already on standard output: from any world it appends
    exactly the blocks of a fresh invocation on the same settings, and ends
    the same way. *)
Theorem handle_appends_output (w : World) :
  handle w = (push w (output (settings w)), outcome (settings w)).
Proof.
  destruct (invoke_cases (settings w))
    as [(debug & key & hosts & Hd & Hk & Hh & -> & ->)
       | [(Hd & -> & ->)
         | [(debug & Hd & Hk & -> & ->)
           | (debug & key & Hd & Hk & Hh & -> & ->)]]].
  - apply handle_returns; assumption.
  - apply handle_raises_DEBUG; assumption.
  - apply handle_raises_SECRET_KEY; assumption.
  - apply handle_raises_ALLOWED_HOSTS; assumption.
Qed.

(** X2.  An invocation that returns has written between four and seven
    blocks; one that faults has written between one and four. *)
Theorem output_length_bounds (s : Settings) :
  (outcome s = inr tt ->
   4 <= length (output s) /\ length (output s) <= 7) /\
  (outcome s <> inr tt ->
   1 <= length (output s) /\ length (output s) <= 4).
Proof.
  destruct (invoke_cases s)
    as [(debug & key & hosts & Hd & Hk & Hh & -> & ->)
       | [(Hd & -> & ->)
         | [(debug & Hd & Hk & -> & ->)
           | (debug & key & Hd & Hk & Hh & -> & ->)]]];
    (split; [intros Hr | intros Hr]); try discriminate Hr;
    try (exfalso; apply Hr; reflexivity);
    blocks; cbn [length]; split; repeat constructor.
Qed.

Lemma output_length_bounds_witness :
  (4 <= length (output production_like) /\
   length (output production_like) <= 7) /\
  (1 <= length (output no_secret_key) /\
   length (output no_secret_key) <= 4).
Proof.
  split.
  - apply (output_length_bounds production_like). reflexivity.
  - apply (output_length_bounds no_secret_key). discriminate.
Defined.

Lemma nonempty_tail (front back : list styled) :
  back <> [] -> (front ++ back)%list <> [].
Proof. destruct front; [trivial | discriminate]. Qed.

(** X3.  What an invocation wrote before it faulted is the beginning of
    what it writes once the missing attributes are supplied, whatever
    values they get, and the completed run writes more. *)
Theorem fault_output_is_prefix (s : Settings) (debug : bool) (key : string)
  (hosts : list string) :
  exposes_required s = false ->
  exists rest,
    rest <> [] /\
    output (with_defaults debug key hosts s) = (output s ++ rest)%list.
Proof.
  intros E.
  assert (Hfull : exists d k h,
             DEBUG (with_defaults debug key hosts s) = Some d /\
             SECRET_KEY (with_defaults debug key hosts s) = Some k /\
             ALLOWED_HOSTS (with_defaults debug key hosts s) = Some h /\
             (forall x, DEBUG s = Some x -> d = x) /\
             (forall x, SECRET_KEY s = Some x -> k = x))
    by (unfold with_defaults; cbn; do 3 eexists; repeat split;
        intros x Hx; now rewrite Hx).
  destruct Hfull as (d & k & h & Hd' & Hk' & Hh' & Dd & Dk).
  destruct (invoke_returns _ d k h Hd' Hk' Hh') as [-> _].
  change (TENANT_DOMAIN (with_defaults debug key hosts s))
    with (TENANT_DOMAIN s).
  destruct (exposes_required_false s E)
    as [Hd | [(debug0 & Hd & Hk) | (debug0 & key0 & Hd & Hk & Hh)]].
  - destruct (invoke_raises_DEBUG s Hd) as [-> _].
    eexists. split; [| reflexivity].
    repeat apply nonempty_tail. discriminate.
  - destruct (invoke_raises_SECRET_KEY s debug0 Hd Hk) as [-> _].
    rewrite (Dd _ Hd). eexists.
    split; [| now rewrite <- app_assoc].
    repeat apply nonempty_tail. discriminate.
  - destruct (invoke_raises_ALLOWED_HOSTS s debug0 key0 Hd Hk Hh) as [-> _].
    rewrite (Dd _ Hd), (Dk _ Hk). eexists.
    split; [| now rewrite <- !app_assoc].
    repeat apply nonempty_tail. discriminate.
Qed.

Lemma fault_output_is_prefix_witness :
  exists rest,
    rest <> [] /\
    output (with_defaults false "k" [] no_secret_key) =
      (output no_secret_key ++ rest)%list.
Proof.
  apply (fault_output_is_prefix no_secret_key false "k" []). reflexivity.
Defined.

Lemma bool_eq_of_iff (a b : bool) : (a = true <-> b = true) -> a = b.
Proof. destruct a, b; intros [H1 H2]; auto; symmetry; auto. Qed.

(** X4.  The output shows of [SECRET_KEY] only whether it contains the
    placeholder marker: two providers that differ in nothing but
    [SECRET_KEY], with the marker in both keys or in neither, give the same
    output and end the same way. *)
Theorem secret_key_not_disclosed (debug : option bool) (key1 key2 : string)
  (domain : option string) (hosts : option (list string))
  (model : option string) :
  (substring_of "django-insecure" key1 <->
   substring_of "django-insecure" key2) ->
  output (mkSettings debug (Some key1) domain hosts model) =
  output (mkSettings debug (Some key2) domain hosts model) /\
  outcome (mkSettings debug (Some key1) domain hosts model) =
  outcome (mkSettings debug (Some key2) domain hosts model).
Proof.
  intros H. rewrite <- !str_contains_iff in H. apply bool_eq_of_iff in H.
  assert (Hout : secret_key_out key1 = secret_key_out key2)
    by (unfold secret_key_out; now rewrite H).
  destruct debug as [d |]; [destruct hosts as [h |] |].
  - destruct (invoke_returns (mkSettings (Some d) (Some key1) domain
                                (Some h) model) d key1 h
                eq_refl eq_refl eq_refl) as [-> ->].
    destruct (invoke_returns (mkSettings (Some d) (Some key2) domain
                                (Some h) model) d key2 h
                eq_refl eq_refl eq_refl) as [-> ->].
    cbn [TENANT_DOMAIN TENANT_MODEL]. now rewrite Hout.
  - destruct (invoke_raises_ALLOWED_HOSTS
                (mkSettings (Some d) (Some key1) domain None model) d key1
                eq_refl eq_refl eq_refl) as [-> ->].
    destruct (invoke_raises_ALLOWED_HOSTS
                (mkSettings (Some d) (Some key2) domain None model) d key2
                eq_refl eq_refl eq_refl) as [-> ->].
    cbn [TENANT_DOMAIN]. now rewrite Hout.
  - destruct (invoke_raises_DEBUG
                (mkSettings None (Some key1) domain hosts model) eq_refl)
      as [-> ->].
    destruct (invoke_raises_DEBUG
                (mkSettings None (Some key2) domain hosts model) eq_refl)
      as [-> ->].
    split; reflexivity.
Qed.

Lemma secret_key_not_disclosed_witness :
  output (mkSettings (Some true) (Some "django-insecure-abc123") None
            (Some ["zentoerp.com"]) None) =
  output (mkSettings (Some true) (Some "xx-django-insecure-xx") None
            (Some ["zentoerp.com"]) None) /\
  outcome (mkSettings (Some true) (Some "django-insecure-abc123") None
             (Some ["zentoerp.com"]) None) =
  outcome (mkSettings (Some true) (Some "xx-django-insecure-xx") None
             (Some ["zentoerp.com"]) None).
Proof.
  apply (secret_key_not_disclosed (Some true) "django-insecure-abc123"
           "xx-django-insecure-xx" None (Some ["zentoerp.com"]) None).
  split; intros _.
  - now exists "xx-", "-xx".
  - now exists "", "-abc123".
Defined.

(** X5.  Of [ALLOWED_HOSTS] the output shows only whether the wildcard
    host is an element: order, repetitions and every other host are
    without effect. *)
Theorem allowed_hosts_only_membership (debug : option bool)
  (key domain : option string) (hosts1 hosts2 : list string)
  (model : option string) :
  (In "*.zentoerp.com" hosts1 <-> In "*.zentoerp.com" hosts2) ->
  output (mkSettings debug key domain (Some hosts1) model) =
  output (mkSettings debug key domain (Some hosts2) model) /\
  outcome (mkSettings debug key domain (Some hosts1) model) =
  outcome (mkSettings debug key domain (Some hosts2) model).
Proof.
  intros H. rewrite <- !seq_contains_iff in H. apply bool_eq_of_iff in H.
  assert (Hout : allowed_hosts_out hosts1 = allowed_hosts_out hosts2)
    by (unfold allowed_hosts_out; now rewrite H).
  destruct debug as [d |]; [destruct key as [k |] |].
  - destruct (invoke_returns (mkSettings (Some d) (Some k) domain
                                (Some hosts1) model) d k hosts1
                eq_refl eq_refl eq_refl) as [-> ->].
    destruct (invoke_returns (mkSettings (Some d) (Some k) domain
                                (Some hosts2) model) d k hosts2
                eq_refl eq_refl eq_refl) as [-> ->].
    cbn [TENANT_DOMAIN TENANT_MODEL]. now rewrite Hout.
  - destruct (invoke_raises_SECRET_KEY
                (mkSettings (Some d) None domain (Some hosts1) model) d
                eq_refl eq_refl) as [-> ->].
    destruct (invoke_raises_SECRET_KEY
                (mkSettings (Some d) None domain (Some hosts2) model) d
                eq_refl eq_refl) as [-> ->].
    split; reflexivity.
  - destruct (invoke_raises_DEBUG
                (mkSettings None key domain (Some hosts1) model) eq_refl)
      as [-> ->].
    destruct (invoke_raises_DEBUG
                (mkSettings None key domain (Some hosts2) model) eq_refl)
      as [-> ->].
    split; reflexivity.
Qed.

Lemma allowed_hosts_only_membership_witness :
  output (mkSettings (Some false) (Some "k") None
            (Some ["zentoerp.com"; "*.zentoerp.com"]) None) =
  output (mkSettings (Some false) (Some "k") None
            (Some ["*.zentoerp.com"; "*.zentoerp.com"; "localhost"]) None) /\
  outcome (mkSettings (Some false) (Some "k") None
             (Some ["zentoerp.com"; "*.zentoerp.com"]) None) =
  outcome (mkSettings (Some false) (Some "k") None
             (Some ["*.zentoerp.com"; "*.zentoerp.com"; "localhost"]) None).
Proof.
  apply (allowed_hosts_only_membership (Some false) (Some "k") None
           ["zentoerp.com"; "*.zentoerp.com"]
           ["*.zentoerp.com"; "*.zentoerp.com"; "localhost"] None).
  cbn. tauto.
Defined.

(** X6.  A provider without [TENANT_MODEL] and one whose [TENANT_MODEL] is
    the text ['No configurado'] cannot be told apart: same output, same
    ending, whatever the other attributes are. *)
Theorem absent_model_looks_like_placeholder (debug : option bool)
  (key domain : option string) (hosts : option (list string)) :
  output (mkSettings debug key domain hosts None) =
  output (mkSettings debug key domain hosts (Some "No configurado")) /\
  outcome (mkSettings debug key domain hosts None) =
  outcome (mkSettings debug key domain hosts (Some "No configurado")).
Proof.
  destruct debug as [d |];
    [destruct key as [k |]; [destruct hosts as [h |] |] |].
  - destruct (invoke_returns (mkSettings (Some d) (Some k) domain (Some h)
                                None) d k h eq_refl eq_refl eq_refl)
      as [-> ->].
    destruct (invoke_returns (mkSettings (Some d) (Some k) domain (Some h)
                                (Some "No configurado")) d k h
                eq_refl eq_refl eq_refl) as [-> ->].
    split; reflexivity.
  - destruct (invoke_raises_ALLOWED_HOSTS
                (mkSettings (Some d) (Some k) domain None None) d k
                eq_refl eq_refl eq_refl) as [-> ->].
    destruct (invoke_raises_ALLOWED_HOSTS
                (mkSettings (Some d) (Some k) domain None
                   (Some "No configurado")) d k
                eq_refl eq_refl eq_refl) as [-> ->].
    split; reflexivity.
  - destruct (invoke_raises_SECRET_KEY
                (mkSettings (Some d) None domain hosts None) d
                eq_refl eq_refl) as [-> ->].
    destruct (invoke_raises_SECRET_KEY
                (mkSettings (Some d) None domain hosts
                   (Some "No configurado")) d eq_refl eq_refl) as [-> ->].
    split; reflexivity.
  - destruct (invoke_raises_DEBUG
                (mkSettings None key domain hosts None) eq_refl) as [-> ->].
    destruct (invoke_raises_DEBUG
                (mkSettings None key domain hosts (Some "No configurado"))
                eq_refl) as [-> ->].
    split; reflexivity.
Qed.

(** Texts can be cancelled on either side of an append. *)
Lemma append_length (a b : string) :
  String.length (a ++ b) = String.length a + String.length b.
Proof. induction a as [| c a IH]; cbn; [reflexivity | now rewrite IH]. Qed.

Lemma append_cancel_l (a x y : string) : a ++ x = a ++ y -> x = y.
Proof.
  induction a as [| c a IH]; cbn; [trivial |].
  intros H. injection H as H. auto.
Qed.

Lemma append_cancel_r (t a b : string) : a ++ t = b ++ t -> a = b.
Proof.
  revert b. induction a as [| c a IH]; intros [| c' b] H; cbn in H.
  - reflexivity.
  - apply (f_equal String.length) in H. cbn in H.
    rewrite append_length in H. lia.
  - apply (f_equal String.length) in H. cbn in H.
    rewrite append_length in H. lia.
  - injection H as -> H. f_equal. auto.
Qed.

Lemma tenant_domain_line_inj (d1 d2 : string) :
  tenant_domain_line d1 = tenant_domain_line d2 -> d1 = d2.
Proof.
  unfold tenant_domain_line. intros H.
  assert (H' : Msg.tenant_domain_prefix ++ d1 = Msg.tenant_domain_prefix ++ d2)
    by congruence.
  exact (append_cancel_l _ _ _ H').
Qed.

Lemma summary_block_inj (m1 m2 : option string) :
  summary_block m1 = summary_block m2 -> shown_model m1 = shown_model m2.
Proof.
  unfold summary_block, Msg.summary. fold (shown_model m1) (shown_model m2).
  intros H.
  assert (H' : Msg.summary_head ++ shown_model m1 ++ Msg.summary_tail =
               Msg.summary_head ++ shown_model m2 ++ Msg.summary_tail)
    by congruence.
  apply append_cancel_l in H'. exact (append_cancel_r _ _ _ H').
Qed.

(** X7.  A [TENANT_DOMAIN] success line in the output tells the truth:
    whatever stands after its prefix is the value of the attribute, whole
    and unchanged. *)
Theorem tenant_domain_line_is_truthful (s : Settings) (domain : string) :
  In (SUCCESS (Msg.tenant_domain_prefix ++ domain)) (output s) ->
  TENANT_DOMAIN s = Some domain.
Proof.
  fold (tenant_domain_line domain). intros H.
  destruct (invoke_cases s)
    as [(debug & key & hosts & Hd & Hk & Hh & Ho & _)
       | [(Hd & Ho & _)
         | [(debug & Hd & Hk & Ho & _)
           | (debug & key & Hd & Hk & Hh & Ho & _)]]];
    rewrite Ho in H; clear Ho; blocks; cases;
    match goal with
    | Heq : tenant_domain_line _ = tenant_domain_line _ |- _ =>
        apply tenant_domain_line_inj in Heq; now subst
    end.
Qed.

Lemma tenant_domain_line_is_truthful_witness :
  TENANT_DOMAIN production_like = Some "acme.zentoerp.com".
Proof.
  apply (tenant_domain_line_is_truthful production_like "acme.zentoerp.com").
  vm_compute. tauto.
Defined.

(** X8.  A closing summary in the output means the invocation returned,
    and the tenant model it names is the provider's, or the placeholder
    when the provider has none: a summary naming any other model is never
    written. *)
Theorem summary_is_truthful (s : Settings) (named : option string) :
  In (summary_block named) (output s) ->
  outcome s = inr tt /\ shown_model named = shown_model (TENANT_MODEL s).
Proof.
  intros H.
  destruct (invoke_cases s)
    as [(debug & key & hosts & Hd & Hk & Hh & Ho & Hr)
       | [(Hd & Ho & _)
         | [(debug & Hd & Hk & Ho & _)
           | (debug & key & Hd & Hk & Hh & Ho & _)]]];
    rewrite Ho in H; clear Ho.
  - split; [exact Hr |].
    assert (Hsum : summary_block (TENANT_MODEL s) = summary_block named)
      by (generalize dependent (summary_block (TENANT_MODEL s));
          intros last H; blocks; cases; assumption).
    symmetry. exact (summary_block_inj _ _ Hsum).
  - blocks; cases.
  - blocks; cases.
  - blocks; cases.
Qed.

Lemma summary_is_truthful_witness :
  outcome other_model = inr tt /\
  shown_model (Some "customers.Client") =
  shown_model (TENANT_MODEL other_model).
Proof.
  apply (summary_is_truthful other_model (Some "customers.Client")).
  vm_compute. tauto.
Defined.

(** X9.  Every invocation, also one that faults at its first read, starts
    its output with the banner, and the banner is not a header over a
    rule: its text holds the header line sixty times and sixty [=], no two
    of them side by side. *)
Theorem banner_comes_first_and_repeats (s : Settings) :
  exists text rest,
    output s = SUCCESS text :: rest /\
    occurrences banner_header text = 60 /\
    occurrences "=" text = 60 /\
    occurrences "==" text = 0.
Proof.
  exists (str_mul Msg.banner_literal 60).
  destruct (invoke_cases s)
    as [(debug & key & hosts & Hd & Hk & Hh & -> & _)
       | [(Hd & -> & _)
         | [(debug & Hd & Hk & -> & _)
           | (debug & key & Hd & Hk & Hh & -> & _)]]];
    eexists; (split; [reflexivity |]); vm_compute; auto.
Qed.

(** X10.  On a provider with the required attributes, every block of the
    output is in the success style exactly when [DEBUG] is false,
    [SECRET_KEY] is free of the marker, [TENANT_DOMAIN] is present and the
    wildcard host is allowed.  [TENANT_MODEL] has no part in it: a missing
    or foreign tenant model is never flagged. *)
Theorem all_success_iff (s : Settings) (debug : bool) (key : string)
  (hosts : list string) :
  DEBUG s = Some debug ->
  SECRET_KEY s = Some key ->
  ALLOWED_HOSTS s = Some hosts ->
  (forallb is_success (output s) = true <->
   debug = false /\ ~ substring_of "django-insecure" key /\
   TENANT_DOMAIN s <> None /\ In "*.zentoerp.com" hosts).
Proof.
  intros Hd Hk Hh.
  destruct (invoke_returns s debug key hosts Hd Hk Hh) as [-> _].
  rewrite <- str_contains_iff, <- seq_contains_iff.
  unfold debug_out, secret_key_out, tenant_domain_out, allowed_hosts_out,
    tenant_model_out.
  destruct debug, (str_contains "django-insecure" key),
    (TENANT_DOMAIN s) as [d |], (seq_contains "*.zentoerp.com" hosts),
    (TENANT_MODEL s) as [m |];
    try destruct (String.eqb m "tenants.Tenant");
    cbv [app forallb is_success andb banner_block debug_line secret_key_line
         tenant_domain_line tenant_domain_error allowed_hosts_line
         allowed_hosts_error tenant_model_line summary_block];
    split;
    try (intros H; discriminate H);
    try (intros (H1 & H2 & H3 & H4);
         first [discriminate H1 | discriminate H4
               | exfalso; apply H2; reflexivity
               | exfalso; apply H3; reflexivity]);
    try (intros _; repeat split; try discriminate; reflexivity).
Qed.

Lemma all_success_iff_witness :
  (forallb is_success (output production_like) = true <->
   false = false /\
   ~ substring_of "django-insecure" "k3y-from-the-environment" /\
   TENANT_DOMAIN production_like <> None /\
   In "*.zentoerp.com" ["zentoerp.com"; "*.zentoerp.com"]) /\
  (forallb is_success (output other_model) = true <->
   true = false /\
   ~ substring_of "django-insecure" "xx-django-insecure-xx" /\
   TENANT_DOMAIN other_model <> None /\
   In "*.zentoerp.com" ["*.zentoerp.com"]).
Proof.
  split.
  - apply (all_success_iff production_like false "k3y-from-the-environment"
             ["zentoerp.com"; "*.zentoerp.com"]); reflexivity.
  - apply (all_success_iff other_model true "xx-django-insecure-xx"
             ["*.zentoerp.com"]); reflexivity.
Defined.

(** X11.  The tenant-model success line and the closing summary agree:
    when the success line is in the output, the summary of the same output
    names ['tenants.Tenant']. *)
Theorem model_line_agrees_with_summary (s : Settings) :
  In tenant_model_line (output s) ->
  In (summary_block (Some "tenants.Tenant")) (output s).
Proof.
  intros H.
  destruct (invoke_cases s)
    as [(debug & key & hosts & Hd & Hk & Hh & Ho & _)
       | [(Hd & Ho & _)
         | [(debug & Hd & Hk & Ho & _)
           | (debug & key & Hd & Hk & Hh & Ho & _)]]];
    rewrite Ho in *; clear Ho; blocks; cases;
    match goal with
    | Heq : String.eqb _ _ = true |- _ =>
        apply String.eqb_eq in Heq; subst; found
    end.
Qed.

Lemma model_line_agrees_with_summary_witness :
  In (summary_block (Some "tenants.Tenant")) (output production_like).
Proof.
  apply (model_line_agrees_with_summary production_like).
  vm_compute. tauto.
Defined.

(** X12.  No block is written twice: the blocks of an invocation are
    pairwise different, whether it returns or faults. *)
Theorem output_has_no_repeats (s : Settings) : NoDup (output s).
Proof.
  destruct (invoke_cases s)
    as [(debug & key & hosts & Hd & Hk & Hh & -> & _)
       | [(Hd & -> & _)
         | [(debug & Hd & Hk & -> & _)
           | (debug & key & Hd & Hk & Hh & -> & _)]]];
    blocks;
    repeat (constructor; [cbn [In]; intros Hin; cases |]);
    constructor.
Qed.
